(** * go-result: the generic [Result[T]] container

    A shallow embedding of the Go package's [Result[T]] type, its two
    constructors [Ok] and [Err] and its seven methods, followed by the
    properties its specification states about them.

    Modelling decisions, all taken from the source:

    - Go's [error] is an interface type whose values are either [nil] or
      a dynamic value with an [Error() string] method.  It is modelled as
      [option E], where [E] is the type of the non-nil dynamic values.
      Their [Error()] method is a call like any other: it returns a text
      or panics ([Error_call]); an interface value that holds a nil
      pointer is not nil, and its [Error()] may dereference it.  Error
      types whose [Error()] always returns, as those of [errors], [fmt]
      and [os], give the text as a function ([errorMsg]).
    - Every Go type has a zero value ([var zero T]): class [GoType].
    - [panic(v)] takes a value of type [any].  An outcome is either a
      normal return or a panic carrying its payload; the payload type
      has a case for strings and one for error values, so that what the
      code puts in it is a property and not a consequence of the type.
    - Methods have the receiver [r Result[T]].  A method body is a
      computation over the receiver's frame: it reads fields with [load]
      and could write them with [store]; it ends with [ret] or [panic].
    - Go strings are byte sequences and [+] is concatenation: [string]
      and [append]. *)

From Stdlib Require Import String Ascii List Bool ZArith.
Import ListNotations.
Local Open Scope string_scope.

Set Implicit Arguments.

(** ** Go types and the [error] interface *)

Class GoType (T : Type) : Type := { zero : T }.

Class GoError (E : Type) : Type := { errorMsg : E -> string }.

Definition error (E : Type) : Type := option E.

Definition nil {E : Type} : error E := None.

Definition isNil {E : Type} (e : error E) : bool :=
  match e with
  | None => true
  | Some _ => false
  end.

(** ** Outcomes of a call *)

Inductive panic_value (E : Type) : Type :=
| PanicString (s : string)
| PanicError (e : E).

Arguments PanicString {E} s.
Arguments PanicError {E} e.

Inductive outcome (E A : Type) : Type :=
| Returned (a : A)
| Panicked (p : panic_value E).

Arguments Returned {E A} a.
Arguments Panicked {E A} p.

(** The [Error()] method of the dynamic values of type [E]. *)
Class ErrorMethod (E : Type) : Type := { Error_call : E -> outcome E string }.

(** An error type whose [Error()] always returns its text. *)
#[export] Instance ErrorMethod_returns (E : Type) `{GoError E}
  : ErrorMethod E :=
  {| Error_call := fun x => Returned (errorMsg x) |}.

(** ** The container *)

Record Result (T E : Type) : Type := mkResult {
  value : T;
  err : error E
}.

Arguments mkResult {T E} value err.

(** ** Method bodies: computations over the receiver's frame *)

Module Frame.

Definition Method (T E A : Type) : Type :=
  Result T E -> outcome E A * Result T E.

Definition ret {T E A : Type} (a : A) : Method T E A :=
  fun r => (Returned a, r).

Definition panic {T E A : Type} (p : panic_value E) : Method T E A :=
  fun r => (Panicked p, r).

Definition bind {T E A B : Type}
    (m : Method T E A) (k : A -> Method T E B) : Method T E B :=
  fun r =>
    match m r with
    | (Returned a, r') => k a r'
    | (Panicked p, r') => (Panicked p, r')
    end.

Definition load {T E A : Type} (field : Result T E -> A) : Method T E A :=
  fun r => (Returned (field r), r).

Definition store {T E : Type} (r' : Result T E) : Method T E unit :=
  fun _ => (Returned tt, r').

(** A call made by the body to a method of another value: its outcome,
    a panic included, is the body's; the receiver's frame is untouched. *)
Definition callee {T E A : Type} (o : outcome E A) : Method T E A :=
  fun r => (o, r).

Definition fmap {T E A B : Type} (f : A -> B) (m : Method T E A)
  : Method T E B :=
  bind m (fun a => ret (f a)).

End Frame.

Import Frame.

Declare Scope method_scope.
Delimit Scope method_scope with method.
Notation "x <- m ;; k" := (bind m (fun x => k))
  (at level 100, m at next level, right associativity) : method_scope.
Local Open Scope method_scope.

(** What a call returns to its caller, and the receiver's frame when the
    body is left. *)

Definition call {T E A : Type} (m : Method T E A) (r : Result T E)
  : outcome E A := fst (m r).

Definition frame_after {T E A : Type} (m : Method T E A) (r : Result T E)
  : Result T E := snd (m r).

Section ResultDef.

Context {T E : Type} `{GoType T} `{ErrorMethod E}.

(** *** Constructors *)

Definition Ok (v : T) : Result T E :=
  {| value := v; err := nil |}.

Definition Err (e : error E) : Result T E :=
  {| value := zero; err := e |}.

(** A variable declared without either constructor: [var r Result[T]]. *)
Definition zeroResult : Result T E :=
  {| value := zero; err := nil |}.

(** *** Inspectors *)

Definition IsOk : Method T E bool :=
  e <- load (@err T E) ;;
  ret (isNil e).

Definition IsErr : Method T E bool :=
  e <- load (@err T E) ;;
  ret (negb (isNil e)).

Definition Error : Method T E (error E) :=
  e <- load (@err T E) ;;
  ret e.

(** *** Extraction *)

Definition Unwrap : Method T E T :=
  e <- load (@err T E) ;;
  match e with
  | Some x =>
      s <- callee (Error_call x) ;;
      panic (PanicString ("called Unwrap on Err: " ++ s))
  | None => v <- load (@value T E) ;; ret v
  end.

Definition Expect (msg : string) : Method T E T :=
  e <- load (@err T E) ;;
  match e with
  | Some x =>
      s <- callee (Error_call x) ;;
      panic (PanicString (msg ++ ": " ++ s))
  | None => v <- load (@value T E) ;; ret v
  end.

Definition UnwrapOr (def : T) : Method T E T :=
  e <- load (@err T E) ;;
  match e with
  | Some _ => ret def
  | None => v <- load (@value T E) ;; ret v
  end.

Definition UnwrapOrErr (newErr : error E) : Method T E (T * error E) :=
  e <- load (@err T E) ;;
  match e with
  | Some _ => ret (zero, newErr)
  | None => v <- load (@value T E) ;; ret (v, nil)
  end.

End ResultDef.

(** ** The method set as data, and a caller that makes a sequence of calls *)

Inductive op (T E : Type) : Type :=
| OpIsOk
| OpIsErr
| OpError
| OpUnwrap
| OpExpect (msg : string)
| OpUnwrapOr (def : T)
| OpUnwrapOrErr (newErr : error E).

Arguments OpIsOk {T E}.
Arguments OpIsErr {T E}.
Arguments OpError {T E}.
Arguments OpUnwrap {T E}.
Arguments OpExpect {T E} msg.
Arguments OpUnwrapOr {T E} def.
Arguments OpUnwrapOrErr {T E} newErr.

Inductive reply (T E : Type) : Type :=
| RBool (b : bool)
| RError (e : error E)
| RValue (v : T)
| RPair (p : T * error E).

Arguments RBool {T E} b.
Arguments RError {T E} e.
Arguments RValue {T E} v.
Arguments RPair {T E} p.

Section Caller.

Context {T E : Type} `{GoType T} `{ErrorMethod E}.

Definition invoke (o : op T E) : Method T E (reply T E) :=
  match o with
  | OpIsOk => fmap RBool IsOk
  | OpIsErr => fmap RBool IsErr
  | OpError => fmap RError Error
  | OpUnwrap => fmap RValue Unwrap
  | OpExpect msg => fmap RValue (Expect msg)
  | OpUnwrapOr def => fmap RValue (UnwrapOr def)
  | OpUnwrapOrErr newErr => fmap RPair (UnwrapOrErr newErr)
  end.

(** The caller makes the calls one after the other on the same
    instance and recovers from each panic, so that a panic does not
    end the sequence.  The frame a body leaves is the receiver of the
    next call: this is what a pointer receiver would give, and it
    covers Go's value receivers, where the body only has a copy. *)
Fixpoint run (os : list (op T E)) (r : Result T E)
  : list (outcome E (reply T E)) * Result T E :=
  match os with
  | [] => ([], r)
  | o :: os' =>
      let (out, r1) := invoke o r in
      let (outs, r2) := run os' r1 in
      (out :: outs, r2)
  end.

End Caller.

(** ** Substrings, as [strings.Contains] decides them *)

Fixpoint contains (s substr : string) : bool :=
  prefix substr s ||
  match s with
  | EmptyString => false
  | String _ s' => contains s' substr
  end.

(** ** Concrete instances used to run the model

    [int] payloads, and the two error implementations the
    example program builds: [errors.New]-style values holding a text,
    and [fmt.Errorf("%w...")] values holding a text and the wrapped
    error. *)

#[export] Instance GoType_int : GoType Z := {| zero := 0%Z |}.

Inductive goerr : Type :=
| errorString (s : string)
| wrapError (msg : string) (inner : goerr).

Definition goerr_Error (e : goerr) : string :=
  match e with
  | errorString s => s
  | wrapError msg _ => msg
  end.

#[export] Instance GoError_goerr : GoError goerr :=
  {| errorMsg := goerr_Error |}.

Definition diskFull : error goerr := Some (errorString "disk full").

(** ** Results reachable through the constructors *)

Inductive Constructed {T E : Type} `{GoType T} : Result T E -> Prop :=
| Constructed_Ok (v : T) : Constructed (mkResult v nil)
| Constructed_Err (e : error E) : Constructed (mkResult zero e).

(** ** The example program: [OpenFile] and [main]

    [OpenFile] and [main] call the standard library.  What they use of
    it is modelled as follows.

    - [os.Open] is the environment: a function from the path to the
      pair it returns, a [*os.File] and an [error].
    - [*os.File] is a pointer: [nil] or the address of a file.  Calling
      [Name] through a nil pointer is a run-time panic; through any
      other it returns the file's name.
    - [fmt.Errorf] with no verb gives an error whose text is the format;
      with ["%w: %s"] it gives an error whose text is the text of the
      [%w] operand, [": "] and the [%s] operand, and whose [Unwrap]
      method returns the [%w] operand.
    - [fmt.Println] and [fmt.Fprintln] write their operands separated by
      a space and followed by a newline; an [error] operand is written
      as its [Error()] text.
    - [defer] registers a call that runs when the function is left, by
      return or by panic, last registered first. *)

Definition ptr (A : Type) : Type := option A.

#[export] Instance GoType_ptr (A : Type) : GoType (ptr A) :=
  {| zero := None |}.

(** Error types a caller of the package can define, and the run-time's
    own error values:

      type MyErr struct{ msg string }
      func (e *MyErr) Error() string { return e.msg }

      type boomErr struct{}
      func (boomErr) Error() string { panic("boom") }

      type selfErr struct{}
      func (e selfErr) Error() string { panic(e) }

    An [error] that holds a nil [*MyErr] is not nil; its [Error()]
    dereferences the nil pointer, which is a run-time panic whose value
    is a run-time error. *)
Inductive usererr : Type :=
| MyErr (p : ptr string)
| boomErr
| selfErr
| runtimeError (s : string).

Definition usererr_Error (e : usererr) : outcome usererr string :=
  match e with
  | MyErr (Some msg) => Returned msg
  | MyErr None =>
      Panicked
        (PanicError
           (runtimeError
              "runtime error: invalid memory address or nil pointer dereference"))
  | boomErr => Panicked (PanicString "boom")
  | selfErr => Panicked (PanicError selfErr)
  | runtimeError s => Returned s
  end.

#[export] Instance ErrorMethod_usererr : ErrorMethod usererr :=
  {| Error_call := usererr_Error |}.

(** Failures that hold such errors. *)
Definition typedNilFailure : Result Z usererr := Err (Some (MyErr None)).

Definition boomFailure : Result Z usererr := Err (Some boomErr).

Definition selfFailure : Result Z usererr := Err (Some selfErr).

Definition goerr_Unwrap (e : goerr) : error goerr :=
  match e with
  | errorString _ => nil
  | wrapError _ inner => Some inner
  end.

Definition Errorf_w_s (w : goerr) (s : string) : goerr :=
  wrapError (goerr_Error w ++ ": " ++ s) w.

Definition errCannotOpenFile : goerr := errorString "cannot open file".

Definition nilDereference : goerr :=
  errorString "runtime error: invalid memory address or nil pointer dereference".

Definition newline : string := String "010"%char EmptyString.

Inductive event (File : Type) : Type :=
| Stdout (s : string)
| Stderr (s : string)
| Closed (f : ptr File).

Arguments Stdout {File} s.
Arguments Stderr {File} s.
Arguments Closed {File} f.

Record world (File : Type) : Type := mkWorld {
  written : list (event File);
  deferred : list (ptr File)
}.

Arguments mkWorld {File} written deferred.

Module Prog.

Definition IO (File A : Type) : Type :=
  world File -> outcome goerr A * world File.

Definition ret {File A : Type} (a : A) : IO File A :=
  fun w => (Returned a, w).

Definition panic {File A : Type} (p : panic_value goerr) : IO File A :=
  fun w => (Panicked p, w).

Definition bind {File A B : Type}
    (m : IO File A) (k : A -> IO File B) : IO File B :=
  fun w =>
    match m w with
    | (Returned a, w') => k a w'
    | (Panicked p, w') => (Panicked p, w')
    end.

Definition emit {File : Type} (ev : event File) : IO File unit :=
  fun w => (Returned tt, mkWorld (written w ++ [ev])%list (deferred w)).

Definition defer_Close {File : Type} (f : ptr File) : IO File unit :=
  fun w => (Returned tt, mkWorld (written w) (f :: deferred w)).

(** A method call on a result held in a local variable. *)
Definition method {File T A : Type} (m : Method T goerr A)
    (r : Result T goerr) : IO File A :=
  fun w => (call m r, w).

(** Leaving the function: the deferred calls run, last registered first. *)
Definition leave {File A : Type} (body : IO File A)
  : outcome goerr A * list (event File) :=
  let (o, w) := body (mkWorld [] []) in
  (o, (written w ++ map Closed (deferred w))%list).

End Prog.

Declare Scope io_scope.
Delimit Scope io_scope with io.
Notation "x <- m ;; k" := (Prog.bind m (fun x => k))
  (at level 100, m at next level, right associativity) : io_scope.

Section Program.

Context {File Eos : Type} `{GoError Eos}.

Variable os_Open : string -> ptr File * error Eos.
Variable File_Name : File -> string.

Definition OpenFile (path : string) : Result (ptr File) goerr :=
  let (f, err) := os_Open path in
  match err with
  | Some x => Err (Some (Errorf_w_s errCannotOpenFile (errorMsg x)))
  | None => Ok f
  end.

Definition Println (s : string) : Prog.IO File unit :=
  Prog.emit (Stdout (s ++ newline)).

Definition Fprintln_Stderr (s : string) : Prog.IO File unit :=
  Prog.emit (Stderr (s ++ newline)).

Definition Name (file : ptr File) : Prog.IO File string :=
  match file with
  | Some f => Prog.ret (File_Name f)
  | None => Prog.panic (PanicError nilDereference)
  end.

(** How [Fprintln] writes an operand of type [error]. *)
Definition show_error (e : error goerr) : string :=
  match e with
  | Some x => errorMsg x
  | None => "<nil>"
  end.

Definition main_body : Prog.IO File unit :=
  (let res := OpenFile "file.txt" in
   ok <- Prog.method IsOk res ;;
   _ <- (if ok then Println "OK: file exists" else Prog.ret tt) ;;
   file <- Prog.method Unwrap res ;;
   name <- Name file ;;
   _ <- Println ("Opened:" ++ " " ++ name) ;;
   _ <- Prog.defer_Close file ;;
   let res := OpenFile "unknown.txt" in
   bad <- Prog.method IsErr res ;;
   _ <- (if bad
         then e <- Prog.method Error res ;;
              Fprintln_Stderr ("ERROR:" ++ " " ++ show_error e)
         else Prog.ret tt) ;;
   p <- Prog.method
          (UnwrapOrErr (Some (errorString "fatal: cannot read unknown.txt")))
          res ;;
   match snd p with
   | Some x => Fprintln_Stderr ("UnwrapOrErr:" ++ " " ++ errorMsg x)
   | None => Prog.ret tt
   end)%io.

Definition main : outcome goerr unit * list (event File) :=
  Prog.leave main_body.

End Program.

(** The files a trace closes, in order. *)
Definition closes {File : Type} (t : list (event File)) : list (ptr File) :=
  flat_map (fun ev => match ev with Closed f => [f] | _ => [] end) t.

(** A file system with the one file [file.txt]; a file is its name. *)
Definition onlyFileTxt (path : string) : ptr string * error goerr :=
  if String.eqb path "file.txt"
  then (Some path, nil)
  else (None,
        Some (errorString ("open " ++ path ++ ": no such file or directory"))).

(** A file system with no file at all. *)
Definition noFile (path : string) : ptr string * error goerr :=
  (None, Some (errorString ("open " ++ path ++ ": no such file or directory"))).

(** A file system in which every path opens. *)
Definition everyFile (path : string) : ptr string * error goerr :=
  (Some path, nil).

(** ** Scenarios of the specification, run on the model *)

Example scenario1 :
  call Unwrap (Ok (E := goerr) 42%Z) = Returned 42%Z.
Proof. reflexivity. Qed.

Example scenario2 :
  call (UnwrapOr 0%Z) (Err diskFull) = Returned 0%Z.
Proof. reflexivity. Qed.

Example scenario3 :
  call (UnwrapOrErr (Some (errorString "fatal"))) (Err (T := Z) diskFull)
  = Returned (0%Z, Some (errorString "fatal")).
Proof. reflexivity. Qed.

Example scenario4 :
  call Unwrap (Err (T := Z) diskFull)
  = Panicked (PanicString "called Unwrap on Err: disk full").
Proof. reflexivity. Qed.

Example scenario5 :
  call (Expect "cannot proceed") (Err (T := Z) diskFull)
  = Panicked (PanicString "cannot proceed: disk full").
Proof. reflexivity. Qed.

(** A body that assigned to the receiver would leave another frame: the
    frame property below is a property of the bodies, not of [Method]. *)
Example store_changes_frame :
  frame_after (store (Ok 1%Z)) (Err (T := Z) diskFull) <> Err diskFull.
Proof. discriminate. Qed.

(** ** Lemmas on strings *)

Unset Implicit Arguments.

Lemma prefix_refl (s : string) : prefix s s = true.
Proof.
  induction s as [|c s IH]; simpl; [reflexivity|].
  destruct (ascii_dec c c) as [_|ne]; [exact IH | now elim ne].
Qed.

Lemma prefix_append (a b : string) : prefix a (a ++ b) = true.
Proof.
  induction a as [|c a IH]; simpl.
  - now destruct b.
  - destruct (ascii_dec c c) as [_|ne]; [exact IH | now elim ne].
Qed.

Lemma contains_of_prefix (s substr : string) :
  prefix substr s = true -> contains s substr = true.
Proof.
  intros Hp. destruct s; cbn [contains]; rewrite Hp; reflexivity.
Qed.

Lemma contains_skip (a s substr : string) :
  contains s substr = true -> contains (a ++ s) substr = true.
Proof.
  intros Hc. induction a as [|c a IH]; [exact Hc|].
  cbn [append contains]. rewrite IH. apply orb_true_r.
Qed.

Lemma contains_head (a b : string) : contains (a ++ b) a = true.
Proof. apply contains_of_prefix, prefix_append. Qed.

Lemma contains_tail (a b : string) : contains (a ++ b) b = true.
Proof. apply contains_skip, contains_of_prefix, prefix_refl. Qed.

(** [contains] finds exactly the strings that occur between a left and a
    right context. *)
Lemma prefix_split (a s : string) :
  prefix a s = true -> exists post, s = a ++ post.
Proof.
  revert s. induction a as [|c a IH]; intros s Hp.
  - exists s. reflexivity.
  - destruct s as [|d s]; simpl in Hp; [discriminate|].
    destruct (ascii_dec c d) as [->|]; [|discriminate].
    destruct (IH s Hp) as [post ->]. exists post. reflexivity.
Qed.

Lemma contains_split (s substr : string) :
  contains s substr = true <->
  exists pre post, s = pre ++ substr ++ post.
Proof.
  split.
  - induction s as [|c s IH]; cbn [contains]; intros Hc.
    + rewrite orb_false_r in Hc.
      destruct (prefix_split _ _ Hc) as [post ->].
      exists "", post. reflexivity.
    + apply orb_true_iff in Hc. destruct Hc as [Hp|Hc].
      * destruct (prefix_split _ _ Hp) as [post ->].
        exists "", post. reflexivity.
      * destruct (IH Hc) as (pre & post & ->).
        exists (String c pre), post. reflexivity.
  - intros (pre & post & ->).
    apply contains_skip, contains_head.
Qed.

(** ** Properties of the container *)

(** Every body of the method set leaves the receiver's frame as it found
    it: no body has an assignment. *)
Lemma methods_keep_frame {T E : Type} `{GoType T} `{ErrorMethod E}
    (r : Result T E) (msg : string) (def : T) (newErr : error E) :
  frame_after IsOk r = r /\
  frame_after IsErr r = r /\
  frame_after Error r = r /\
  frame_after Unwrap r = r /\
  frame_after (Expect msg) r = r /\
  frame_after (UnwrapOr def) r = r /\
  frame_after (UnwrapOrErr newErr) r = r.
Proof.
  destruct r as [v [x|]]; repeat split; try reflexivity.
  - unfold frame_after, Unwrap, bind, load, callee. cbn.
    destruct (Error_call x); reflexivity.
  - unfold frame_after, Expect, bind, load, callee. cbn.
    destruct (Error_call x); reflexivity.
Qed.

Lemma invoke_keeps_frame {T E : Type} `{GoType T} `{ErrorMethod E}
    (o : op T E) (r : Result T E) :
  frame_after (invoke o) r = r.
Proof.
  destruct r as [v [x|]]; destruct o; try reflexivity.
  - unfold frame_after, invoke, fmap, Unwrap, bind, load, callee. cbn.
    destruct (Error_call x); reflexivity.
  - unfold frame_after, invoke, fmap, Expect, bind, load, callee. cbn.
    destruct (Error_call x); reflexivity.
Qed.

Lemma invoke_surjective_pairing {T E : Type} `{GoType T} `{ErrorMethod E}
    (o : op T E) (r : Result T E) :
  invoke o r = (call (invoke o) r, r).
Proof.
  rewrite <- (invoke_keeps_frame o r) at 3.
  unfold call, frame_after. apply surjective_pairing.
Qed.

Lemma run_unfold {T E : Type} `{GoType T} `{ErrorMethod E}
    (os : list (op T E)) (r : Result T E) :
  run os r = (map (fun o => call (invoke o) r) os, r).
Proof.
  induction os as [|o os IH]; cbn [run map]; [reflexivity|].
  rewrite invoke_surjective_pairing, IH. reflexivity.
Qed.

(** What [Unwrap] and [Expect] do on a stored error: they call its
    [Error()] and either pass its panic on or panic with the text. *)
Lemma Unwrap_on_failure {T E : Type} `{GoType T} `{ErrorMethod E}
    (v : T) (x : E) :
  call Unwrap (mkResult v (Some x))
  = match Error_call x with
    | Returned t => Panicked (PanicString ("called Unwrap on Err: " ++ t))
    | Panicked p => Panicked p
    end.
Proof.
  unfold call, Unwrap, bind, load, callee, panic. cbn.
  destruct (Error_call x); reflexivity.
Qed.

Lemma Expect_on_failure {T E : Type} `{GoType T} `{ErrorMethod E}
    (v : T) (x : E) (msg : string) :
  call (Expect msg) (mkResult v (Some x))
  = match Error_call x with
    | Returned t => Panicked (PanicString (msg ++ ": " ++ t))
    | Panicked p => Panicked p
    end.
Proof.
  unfold call, Expect, bind, load, callee, panic. cbn.
  destruct (Error_call x); reflexivity.
Qed.

Section Properties.

Context {T E : Type} `{GoType T} `{ErrorMethod E}.

Local Abbreviation R := (Result T E).

(** C1. For every value [v], [Ok v] answers [IsOk] with true, [IsErr]
    with false, [Error] with nil, and [Unwrap], [Expect m] and
    [UnwrapOr d] with [v], and [UnwrapOrErr e] with [(v, nil)], for
    every message [m], fallback [d] and error [e]. *)
Theorem Ok_behaviour (v : T) (m : string) (d : T) (e : error E) :
  call IsOk (Ok v : R) = Returned true /\
  call IsErr (Ok v : R) = Returned false /\
  call Error (Ok v : R) = Returned nil /\
  call Unwrap (Ok v : R) = Returned v /\
  call (Expect m) (Ok v : R) = Returned v /\
  call (UnwrapOr d) (Ok v : R) = Returned v /\
  call (UnwrapOrErr e) (Ok v : R) = Returned (v, nil).
Proof.
  repeat split; reflexivity.
Qed.

(** C2. For every error [e] (a non-nil value of the interface), [Err e]
    answers [IsErr] with true, [IsOk] with false, [Error] with [e],
    [UnwrapOr d] with [d], and [UnwrapOrErr e2] with the zero value of
    [T] and [e2]: the stored error does not occur in that last result. *)
Theorem Err_behaviour (e : error E) (d : T) (e2 : error E) :
  e <> nil ->
  call IsErr (Err e : R) = Returned true /\
  call IsOk (Err e : R) = Returned false /\
  call Error (Err e : R) = Returned e /\
  call (UnwrapOr d) (Err e : R) = Returned d /\
  call (UnwrapOrErr e2) (Err e : R) = Returned (zero, e2).
Proof.
  intros He. destruct e as [x|]; [|now elim He].
  repeat split; reflexivity.
Qed.

(** C3 (amended). On a result in the failure state, [Unwrap] and
    [Expect msg] panic and do not return.  When the [Error()] method of
    the stored error returns its text, the payload of [Unwrap] is the
    marker "called Unwrap on Err: " followed by that text and the
    payload of [Expect] is [msg], ": " and that text, so both contain
    the error's text and the second also contains [msg].  When
    [Error()] itself panics, that panic is the one raised. *)
Theorem Unwrap_Expect_panic_on_failure (r : Result T E) (msg : string) :
  err r <> nil ->
  exists x : E,
    err r = Some x /\
    (forall v, call Unwrap r <> Returned v) /\
    (forall v, call (Expect msg) r <> Returned v) /\
    (exists pu pe,
        call Unwrap r = Panicked pu /\ call (Expect msg) r = Panicked pe) /\
    (forall t : string,
        Error_call x = Returned t ->
        call Unwrap r
        = Panicked (PanicString ("called Unwrap on Err: " ++ t)) /\
        call (Expect msg) r = Panicked (PanicString (msg ++ ": " ++ t)) /\
        contains ("called Unwrap on Err: " ++ t) t = true /\
        contains (msg ++ ": " ++ t) t = true /\
        contains (msg ++ ": " ++ t) msg = true) /\
    (forall p : panic_value E,
        Error_call x = Panicked p ->
        call Unwrap r = Panicked p /\ call (Expect msg) r = Panicked p).
Proof.
  intros Hr. destruct r as [v [x|]]; [|now elim Hr].
  exists x. split; [reflexivity|].
  rewrite Unwrap_on_failure, Expect_on_failure.
  destruct (Error_call x) as [t|p].
  - split; [discriminate|]. split; [discriminate|].
    split; [now eexists; eexists|]. split.
    + intros t' Ht. injection Ht as <-. repeat split.
      * apply contains_tail.
      * apply contains_skip, contains_tail.
      * apply contains_head.
    + intros p Hp. discriminate.
  - split; [discriminate|]. split; [discriminate|].
    split; [now eexists; eexists|]. split.
    + intros t Ht. discriminate.
    + intros p' Hp. injection Hp as <-. split; reflexivity.
Qed.

(** C4. On every instance, however it was obtained, [IsOk] and [IsErr]
    return and their answers are the negation of each other: never
    both true, never both false. *)
Theorem IsOk_IsErr_complement (r : Result T E) :
  exists b : bool,
    call IsOk r = Returned b /\
    call IsErr r = Returned (negb b) /\
    ~ (call IsOk r = Returned true /\ call IsErr r = Returned true) /\
    ~ (call IsOk r = Returned false /\ call IsErr r = Returned false).
Proof.
  destruct r as [v [x|]].
  - exists false. repeat split; intros [? ?]; discriminate.
  - exists true. repeat split; intros [? ?]; discriminate.
Qed.

(** C5. [Err] does not look at its argument: [Err nil] is the instance
    with the zero value and no error, on which [IsOk] is true, [IsErr]
    is false, [Error] is nil and [Unwrap] returns the zero value
    without a panic. *)
Theorem Err_nil_is_success :
  (Err nil : R) = mkResult zero nil /\
  call IsOk (Err nil : R) = Returned true /\
  call IsErr (Err nil : R) = Returned false /\
  call Error (Err nil : R) = Returned nil /\
  call Unwrap (Err nil : R) = Returned zero.
Proof.
  repeat split; reflexivity.
Qed.

(** C6. [UnwrapOr d] returns the stored value on a success and [d] on
    a failure; it returns on every result and every [d]; and on two
    results with the same value that agree on whether an error is
    present it gives the same answer, whatever the errors are. *)
Theorem UnwrapOr_total_and_blind (r : Result T E) (d : T) :
  call (UnwrapOr d) r = Returned (if isNil (err r) then value r else d) /\
  (exists v, call (UnwrapOr d) r = Returned v) /\
  (forall p, call (UnwrapOr d) r <> Panicked p) /\
  (forall r' : Result T E,
      value r' = value r -> isNil (err r') = isNil (err r) ->
      call (UnwrapOr d) r' = call (UnwrapOr d) r).
Proof.
  destruct r as [v [x|]].
  - split; [reflexivity|]. split; [now exists d|].
    split; [discriminate|].
    intros [v' [x'|]] _ Hn; [reflexivity | discriminate].
  - split; [reflexivity|]. split; [now exists v|].
    split; [discriminate|].
    intros [v' [x'|]] Hv Hn; [discriminate|].
    cbn in Hv. subst v'. reflexivity.
Qed.

(** C7. No method changes the instance: after any sequence of calls to
    the seven methods the value and error fields are what they were,
    every call in the sequence answers what it answers on the initial
    instance, and so a call repeated later in the sequence gives the
    same answer again. *)
Theorem no_operation_mutates (os : list (op T E)) (r : Result T E) :
  value (snd (run os r)) = value r /\
  err (snd (run os r)) = err r /\
  fst (run os r) = map (fun o => call (invoke o) r) os /\
  (forall o, frame_after (invoke o) r = r) /\
  (forall (o : op T E) (pre mid : list (op T E)),
      exists outs1 outs2,
        length outs1 = length pre /\ length outs2 = length mid /\
        fst (run (pre ++ o :: mid ++ [o])%list r)
        = (outs1 ++ call (invoke o) r :: outs2 ++ [call (invoke o) r])%list).
Proof.
  rewrite run_unfold. cbn [fst snd].
  repeat split.
  - intros o. apply invoke_keeps_frame.
  - intros o pre mid.
    exists (map (fun o => call (invoke o) r) pre),
      (map (fun o => call (invoke o) r) mid).
    rewrite run_unfold. cbn [fst].
    rewrite !length_map, map_app. cbn [map]. rewrite map_app.
    repeat split.
Qed.

(** C8. A zero-value instance is [Ok] of the zero value of [T] and
    behaves as it under every method: [IsOk] true, [IsErr] false,
    [Error] nil, [Unwrap], [Expect m] and [UnwrapOr d] the zero value
    without a panic, [UnwrapOrErr e] the zero value and nil. *)
Theorem zero_value_is_Ok_zero (m : string) (d : T) (e : error E) :
  (zeroResult : R) = Ok zero /\
  (forall o : op T E, invoke o (zeroResult : R) = invoke o (Ok zero : R)) /\
  call IsOk (zeroResult : R) = Returned true /\
  call IsErr (zeroResult : R) = Returned false /\
  call Error (zeroResult : R) = Returned nil /\
  call Unwrap (zeroResult : R) = Returned zero /\
  call (Expect m) (zeroResult : R) = Returned zero /\
  call (UnwrapOr d) (zeroResult : R) = Returned zero /\
  call (UnwrapOrErr e) (zeroResult : R) = Returned (zero, nil).
Proof.
  repeat split; reflexivity.
Qed.

(** C9. [UnwrapOrErr] substitutes its argument without looking at it:
    on a failure, [UnwrapOrErr e] returns the zero value and [e] for
    every [e]; so [UnwrapOrErr nil] returns the zero value and nil,
    which is what a success holding the zero value returns, for
    whatever argument. *)
Theorem UnwrapOrErr_nil_erases_failure (r : Result T E) (e' : error E) :
  err r <> nil ->
  call IsErr r = Returned true /\
  (forall e : error E, call (UnwrapOrErr e) r = Returned (zero, e)) /\
  call (UnwrapOrErr nil) r = Returned (zero, nil) /\
  call (UnwrapOrErr nil) r = call (UnwrapOrErr e') (Ok zero : R).
Proof.
  intros Hr. destruct r as [v [x|]]; [|now elim Hr].
  repeat split; reflexivity.
Qed.

(** C10 (amended). When the [Error()] method of the stored error
    returns its text, the payload of the panic of [Unwrap] and
    [Expect msg] on a failure is a string made from that text; it is
    not the error value, and two stored errors whose [Error()] returns
    the same text give the same payload, so that the payload tells the
    text and no more. *)
Theorem panic_payload_is_text (v : T) (x x' : E) (msg t : string) :
  Error_call x = Returned t ->
  Error_call x' = Returned t ->
  call Unwrap (mkResult v (Some x))
  = Panicked (PanicString ("called Unwrap on Err: " ++ t)) /\
  call (Expect msg) (mkResult v (Some x))
  = Panicked (PanicString (msg ++ ": " ++ t)) /\
  (forall y : E, call Unwrap (mkResult v (Some x)) <> Panicked (PanicError y)) /\
  (forall y : E,
      call (Expect msg) (mkResult v (Some x)) <> Panicked (PanicError y)) /\
  call Unwrap (mkResult v (Some x)) = call Unwrap (mkResult v (Some x')) /\
  call (Expect msg) (mkResult v (Some x))
  = call (Expect msg) (mkResult v (Some x')).
Proof.
  intros Hx Hx'.
  rewrite !Unwrap_on_failure, !Expect_on_failure, Hx, Hx'.
  repeat split; discriminate.
Qed.

End Properties.

(** ** The properties at concrete instances *)

Lemma Err_behaviour_witness :
  diskFull <> nil /\
  call IsErr (Err diskFull : Result Z goerr) = Returned true /\
  call IsOk (Err diskFull : Result Z goerr) = Returned false /\
  call Error (Err diskFull : Result Z goerr) = Returned diskFull /\
  call (UnwrapOr 7%Z) (Err diskFull : Result Z goerr) = Returned 7%Z /\
  call (UnwrapOrErr (Some (errorString "fatal")))
    (Err diskFull : Result Z goerr)
  = Returned (0%Z, Some (errorString "fatal")).
Proof.
  split; [discriminate|].
  refine (Err_behaviour (T := Z) diskFull 7%Z (Some (errorString "fatal")) _).
  discriminate.
Defined.

Lemma Unwrap_Expect_panic_on_failure_witness :
  err (Err diskFull : Result Z goerr) <> nil /\
  call Unwrap (Err diskFull : Result Z goerr)
  = Panicked (PanicString "called Unwrap on Err: disk full") /\
  call (Expect "cannot proceed") (Err diskFull : Result Z goerr)
  = Panicked (PanicString "cannot proceed: disk full") /\
  contains "called Unwrap on Err: disk full" "disk full" = true /\
  contains "cannot proceed: disk full" "disk full" = true /\
  contains "cannot proceed: disk full" "cannot proceed" = true.
Proof.
  split; [discriminate|].
  destruct (Unwrap_Expect_panic_on_failure
              (Err diskFull : Result Z goerr) "cannot proceed")
    as (x & Hx & _ & _ & _ & Htext & _); [discriminate|].
  refine (Htext "disk full" _).
  injection Hx as <-. reflexivity.
Defined.

(** C3, as stated, fails on an error whose [Error()] panics: the
    result is in the failure state, and the payload carries neither the
    marker, nor the message, nor a text of the error. *)
Lemma Unwrap_Expect_message_counterexample :
  err typedNilFailure <> nil /\
  call IsErr typedNilFailure = Returned true /\
  ~ (exists t : string,
        call Unwrap typedNilFailure
        = Panicked (PanicString ("called Unwrap on Err: " ++ t))) /\
  ~ (exists t : string,
        call (Expect "cannot proceed") typedNilFailure
        = Panicked (PanicString ("cannot proceed" ++ ": " ++ t))) /\
  call IsErr boomFailure = Returned true /\
  call (Expect "cannot proceed") boomFailure = Panicked (PanicString "boom") /\
  contains "boom" "cannot proceed" = false.
Proof.
  split; [discriminate|]. split; [reflexivity|].
  split; [intros [t Ht]; discriminate|].
  split; [intros [t Ht]; discriminate|].
  repeat split.
Qed.

Lemma UnwrapOr_total_and_blind_witness :
  value (mkResult 0%Z (Some (errorString "timeout")))
  = value (Err diskFull : Result Z goerr) /\
  isNil (Some (errorString "timeout")) = isNil diskFull /\
  call (UnwrapOr 8080%Z) (mkResult 0%Z (Some (errorString "timeout")))
  = call (UnwrapOr 8080%Z) (Err diskFull : Result Z goerr).
Proof.
  split; [reflexivity|]. split; [reflexivity|].
  refine (proj2 (proj2 (proj2
    (UnwrapOr_total_and_blind (Err diskFull : Result Z goerr) 8080%Z)))
    (mkResult 0%Z (Some (errorString "timeout"))) _ _); reflexivity.
Defined.

Lemma UnwrapOrErr_nil_erases_failure_witness :
  err (Err diskFull : Result Z goerr) <> nil /\
  call IsErr (Err diskFull : Result Z goerr) = Returned true /\
  call (UnwrapOrErr (Some (errorString "fatal")))
    (Err diskFull : Result Z goerr)
  = Returned (0%Z, Some (errorString "fatal")) /\
  call (UnwrapOrErr nil) (Err diskFull : Result Z goerr)
  = Returned (0%Z, nil) /\
  call (UnwrapOrErr nil) (Err diskFull : Result Z goerr)
  = call (UnwrapOrErr diskFull) (Ok 0%Z : Result Z goerr).
Proof.
  split; [discriminate|].
  destruct (UnwrapOrErr_nil_erases_failure
              (Err diskFull : Result Z goerr) diskFull)
    as (Hbad & Hsubst & Hnil & Hsame); [discriminate|].
  split; [exact Hbad|].
  split; [exact (Hsubst (Some (errorString "fatal")))|].
  split; [exact Hnil | exact Hsame].
Defined.

Lemma panic_payload_is_text_witness :
  errorString "disk full"
  <> wrapError "disk full" (errorString "no space left on device") /\
  Error_call (errorString "disk full") = Returned "disk full" /\
  Error_call (wrapError "disk full" (errorString "no space left on device"))
  = Returned "disk full" /\
  call Unwrap (mkResult 0%Z (Some (errorString "disk full")))
  = call Unwrap
      (mkResult 0%Z
         (Some (wrapError "disk full"
                  (errorString "no space left on device")))) /\
  call (Expect "cannot proceed") (mkResult 0%Z (Some (errorString "disk full")))
  = call (Expect "cannot proceed")
      (mkResult 0%Z
         (Some (wrapError "disk full"
                  (errorString "no space left on device")))).
Proof.
  split; [discriminate|]. split; [reflexivity|]. split; [reflexivity|].
  refine (proj2 (proj2 (proj2 (proj2
    (panic_payload_is_text 0%Z (errorString "disk full")
       (wrapError "disk full" (errorString "no space left on device"))
       "cannot proceed" "disk full" _ _))))); reflexivity.
Defined.

(** C10, as stated, fails on an error whose [Error()] panics: the
    payload is then no string, and it can be the stored error itself. *)
Lemma panic_payload_counterexample :
  call IsErr typedNilFailure = Returned true /\
  call Unwrap typedNilFailure
  = Panicked
      (PanicError
         (runtimeError
            "runtime error: invalid memory address or nil pointer dereference")) /\
  ~ (exists s : string,
        call Unwrap typedNilFailure = Panicked (PanicString s)) /\
  ~ (exists s : string,
        call (Expect "cannot proceed") typedNilFailure
        = Panicked (PanicString s)) /\
  err selfFailure = Some selfErr /\
  call Unwrap selfFailure = Panicked (PanicError selfErr) /\
  call (Expect "cannot proceed") selfFailure = Panicked (PanicError selfErr).
Proof.
  split; [reflexivity|]. split; [reflexivity|].
  split; [intros [s Hs]; discriminate|].
  split; [intros [s Hs]; discriminate|].
  repeat split.
Qed.

(** ** Further properties of the container *)

Section MoreProperties.

Context {T E : Type} `{GoType T} `{ErrorMethod E}.

Local Abbreviation R := (Result T E).

(** X1. [Unwrap] is [Expect] with the message "called Unwrap on Err":
    on every result the two give the same outcome, the same panic
    payload included. *)
Theorem Unwrap_is_Expect_marker (r : R) :
  call Unwrap r = call (Expect "called Unwrap on Err") r /\
  frame_after Unwrap r = frame_after (Expect "called Unwrap on Err") r.
Proof.
  destruct r as [v [x|]]; split; reflexivity.
Qed.

(** X2. On a result that holds an error no method reads the value
    field: two results with the same error answer every call alike,
    whatever their values. *)
Theorem failure_never_reads_value (v v' : T) (x : E) (o : op T E) :
  call (invoke o) (mkResult v (Some x))
  = call (invoke o) (mkResult v' (Some x)).
Proof.
  destruct o; try reflexivity.
  - unfold call, invoke, fmap, Unwrap, bind, load, callee. cbn.
    destruct (Error_call x); reflexivity.
  - unfold call, invoke, fmap, Expect, bind, load, callee. cbn.
    destruct (Error_call x); reflexivity.
Qed.

(** X3. [IsOk] and [IsErr] are exact guards for the panicking
    extractors: [Unwrap] and [Expect msg] return, and return the stored
    value, exactly when [IsOk] answers true, and panic exactly when
    [IsErr] answers true. *)
Theorem guards_are_exact (r : R) (msg : string) :
  (call IsOk r = Returned true <-> call Unwrap r = Returned (value r)) /\
  (call IsOk r = Returned true <-> call (Expect msg) r = Returned (value r)) /\
  (call IsErr r = Returned true <-> exists p, call Unwrap r = Panicked p) /\
  (call IsErr r = Returned true <->
   exists p, call (Expect msg) r = Panicked p).
Proof.
  destruct r as [v [x|]].
  - rewrite Unwrap_on_failure, Expect_on_failure. cbn.
    destruct (Error_call x) as [t|p];
      repeat split; try discriminate; intros _; eexists; reflexivity.
  - cbn. repeat split; try discriminate; intros [p Hp]; discriminate.
Qed.

(** X4. When [Unwrap] returns [v], the result is [Ok v], and [Expect],
    [UnwrapOr] and [UnwrapOrErr] hand out the same [v], with a nil
    error, for every message, fallback and substitute error. *)
Theorem Unwrap_returns_then_all_agree (r : R) (v : T) :
  call Unwrap r = Returned v ->
  r = Ok v /\
  forall (msg : string) (d : T) (e : error E),
    call (Expect msg) r = Returned v /\
    call (UnwrapOr d) r = Returned v /\
    call (UnwrapOrErr e) r = Returned (v, nil).
Proof.
  destruct r as [w [x|]]; intros Hu.
  - rewrite Unwrap_on_failure in Hu.
    destruct (Error_call x); discriminate.
  - cbn in Hu. injection Hu as ->. split; [reflexivity|].
    intros msg d e. repeat split.
Qed.

(** X5. [UnwrapOrErr e] returns the value [UnwrapOr] gives for the zero
    fallback, paired with [e] on a failure and nil on a success; called
    with the stored error [Error()] it returns that error unchanged. *)
Theorem UnwrapOrErr_decomposes (r : R) (e : error E) :
  exists (v : T) (b : bool) (stored : error E),
    call (UnwrapOr zero) r = Returned v /\
    call IsErr r = Returned b /\
    call Error r = Returned stored /\
    call (UnwrapOrErr e) r = Returned (v, if b then e else nil) /\
    call (UnwrapOrErr stored) r = Returned (v, stored).
Proof.
  destruct r as [w [x|]].
  - exists zero, true, (Some x). repeat split.
  - exists w, false, nil. repeat split.
Qed.

(** X6. The results the constructors build are exactly the records
    whose value is the zero value whenever an error is stored: a record
    is [Ok v] for some [v] or [Err e] for some [e] exactly when it has
    that shape; and these are the records of [Constructed]. *)
Theorem Ok_Err_build_exactly (r : R) :
  (((exists v : T, r = Ok v) \/ (exists e : error E, r = Err e)) <->
   (err r <> nil -> value r = zero)) /\
  (Constructed r <->
   ((exists v : T, r = Ok v) \/ (exists e : error E, r = Err e))).
Proof.
  split; split.
  - intros [[v ->]|[e ->]]; cbn; [intros Hn; now elim Hn | reflexivity].
  - destruct r as [v [x|]]; cbn; intros Hz.
    + right. exists (Some x). rewrite Hz by discriminate. reflexivity.
    + left. exists v. reflexivity.
  - intros [v|e]; [left; now exists v | right; now exists e].
  - intros [[v ->]|[e ->]]; [apply Constructed_Ok | apply Constructed_Err].
Qed.

(** X7. A result built by the constructors has no hidden state: two of
    them that answer [Error()] and [UnwrapOr] of the zero value alike
    are the same record. *)
Theorem Constructed_determined_by_answers (r1 r2 : R) :
  Constructed r1 -> Constructed r2 ->
  call Error r1 = call Error r2 ->
  call (UnwrapOr zero) r1 = call (UnwrapOr zero) r2 ->
  r1 = r2.
Proof.
  intros [v1|e1] [v2|e2]; cbn; intros He Hv.
  - injection Hv as ->. reflexivity.
  - injection He as <-. cbn in Hv. injection Hv as ->. reflexivity.
  - injection He as ->. cbn in Hv. injection Hv as <-. reflexivity.
  - injection He as ->. reflexivity.
Qed.

End MoreProperties.

(** ** Properties of the example program *)

Section ProgramProperties.

Context {File Eos : Type} `{GoError Eos}.

Variable os_Open : string -> ptr File * error Eos.
Variable File_Name : File -> string.

(** X8. [OpenFile] always gives a result built by a constructor; it is a
    success exactly when [os.Open] reported no error, and then it holds
    the file [os.Open] returned. *)
Theorem OpenFile_mirrors_os_Open (path : string) (d : ptr File) :
  Constructed (OpenFile os_Open path) /\
  call IsOk (OpenFile os_Open path)
  = Returned (isNil (snd (os_Open path))) /\
  call IsErr (OpenFile os_Open path)
  = Returned (negb (isNil (snd (os_Open path)))) /\
  call (UnwrapOr d) (OpenFile os_Open path)
  = Returned (if isNil (snd (os_Open path)) then fst (os_Open path) else d).
Proof.
  unfold OpenFile. destruct (os_Open path) as [f [x|]]; cbn.
  - split; [apply Constructed_Err|]. repeat split.
  - split; [apply Constructed_Ok|]. repeat split.
Qed.

(** X9. When [os.Open] reports an error, [OpenFile] drops the file that
    came with it and stores an error whose text is "cannot open file: "
    followed by the text of the reported error, and whose [Unwrap] is
    [errCannotOpenFile]; [Unwrap] on the result panics with a message
    that contains the reported error's text. *)
Theorem OpenFile_failure (path : string) (f : ptr File) (x : Eos) :
  os_Open path = (f, Some x) ->
  exists w : goerr,
    OpenFile os_Open path = mkResult None (Some w) /\
    errorMsg w = "cannot open file: " ++ errorMsg x /\
    goerr_Unwrap w = Some errCannotOpenFile /\
    call Unwrap (OpenFile os_Open path)
    = Panicked
        (PanicString
           ("called Unwrap on Err: cannot open file: " ++ errorMsg x)) /\
    contains ("called Unwrap on Err: cannot open file: " ++ errorMsg x)
      (errorMsg x) = true.
Proof.
  intros Hopen. unfold OpenFile. rewrite Hopen.
  exists (Errorf_w_s errCannotOpenFile (errorMsg x)).
  repeat split. apply contains_tail.
Qed.

(** X10. When [file.txt] cannot be opened, [main] ends in the panic of
    [Unwrap], whose message carries the text of the error [os.Open]
    reported, and it has written nothing and closed nothing; what
    [os.Open] does on other paths plays no part. *)
Theorem main_panics_without_file_txt (f : ptr File) (x : Eos) :
  os_Open "file.txt" = (f, Some x) ->
  main os_Open File_Name
  = (Panicked
       (PanicString
          ("called Unwrap on Err: cannot open file: " ++ errorMsg x)),
     []).
Proof.
  intros Hopen.
  unfold main, Prog.leave, main_body, Prog.bind, Prog.method, OpenFile.
  rewrite Hopen. reflexivity.
Qed.

(** X11. When [file.txt] opens, [main] returns, whatever happens with
    [unknown.txt]: it writes the two lines on the standard output,
    then, if [unknown.txt] could not be opened, the two lines on the
    standard error, the first with the wrapped text of the reported
    error and the second with the substitute error's text only, and it
    closes the file last. *)
Theorem main_returns_with_file_txt (f : File) :
  os_Open "file.txt" = (Some f, nil) ->
  main os_Open File_Name
  = (Returned tt,
     ([Stdout ("OK: file exists" ++ newline);
       Stdout ("Opened: " ++ File_Name f ++ newline)]
      ++ match snd (os_Open "unknown.txt") with
         | Some x =>
             [Stderr ("ERROR: cannot open file: " ++ errorMsg x ++ newline);
              Stderr ("UnwrapOrErr: fatal: cannot read unknown.txt"
                      ++ newline)]
         | None => []
         end
      ++ [Closed (Some f)])%list).
Proof.
  intros Hopen.
  unfold main, Prog.leave, main_body, Prog.bind, Prog.method, OpenFile.
  rewrite Hopen.
  destruct (os_Open "unknown.txt") as [g [x|]]; reflexivity.
Qed.

(** X12. [main] returns exactly when [os.Open] gives a file and no
    error for [file.txt]; in every other case it panics. *)
Theorem main_returns_iff :
  fst (main os_Open File_Name) = Returned tt <->
  exists f : File, os_Open "file.txt" = (Some f, nil).
Proof.
  unfold main, Prog.leave, main_body, Prog.bind, Prog.method, OpenFile.
  destruct (os_Open "file.txt") as [[f|] [x|]] eqn:Hopen; cbn.
  - split; [discriminate | intros [f' Hf]; discriminate].
  - split; [intros _; now exists f|intros _].
    destruct (os_Open "unknown.txt") as [g [x|]]; reflexivity.
  - split; [discriminate | intros [f' Hf]; discriminate].
  - split; [discriminate | intros [f' Hf]; discriminate].
Qed.

(** X13. When [file.txt] opens, the only file [main] closes is that
    one, once: a file [os.Open] returns for [unknown.txt] is never
    closed. *)
Theorem main_closes_only_file_txt (f : File) :
  os_Open "file.txt" = (Some f, nil) ->
  closes (snd (main os_Open File_Name)) = [Some f].
Proof.
  intros Hopen.
  unfold main, Prog.leave, main_body, Prog.bind, Prog.method, OpenFile.
  rewrite Hopen.
  destruct (os_Open "unknown.txt") as [g [x|]]; reflexivity.
Qed.

End ProgramProperties.

(** ** The further properties at concrete instances *)

Lemma guards_are_exact_witness :
  call IsErr (Err diskFull : Result Z goerr) = Returned true /\
  exists p, call Unwrap (Err diskFull : Result Z goerr) = Panicked p.
Proof.
  split; [reflexivity|].
  refine (proj1 (proj1 (proj2 (proj2
    (guards_are_exact (Err diskFull : Result Z goerr) "cannot proceed")))) _).
  reflexivity.
Defined.

Lemma Unwrap_returns_then_all_agree_witness :
  call Unwrap (Ok 42%Z : Result Z goerr) = Returned 42%Z /\
  call (Expect "cannot proceed") (Ok 42%Z : Result Z goerr) = Returned 42%Z /\
  call (UnwrapOr 0%Z) (Ok 42%Z : Result Z goerr) = Returned 42%Z /\
  call (UnwrapOrErr diskFull) (Ok 42%Z : Result Z goerr)
  = Returned (42%Z, nil).
Proof.
  split; [reflexivity|].
  refine (proj2 (Unwrap_returns_then_all_agree
                   (Ok 42%Z : Result Z goerr) 42%Z _)
            "cannot proceed" 0%Z diskFull).
  reflexivity.
Defined.

Lemma Ok_Err_build_exactly_witness :
  ((exists v : Z, mkResult 0%Z diskFull = Ok v) \/
   (exists e : error goerr, mkResult 0%Z diskFull = Err e)) /\
  ~ ((exists v : Z, mkResult 42%Z diskFull = Ok v) \/
     (exists e : error goerr, mkResult 42%Z diskFull = Err e)).
Proof.
  split.
  - refine (proj2 (proj1 (Ok_Err_build_exactly (mkResult 0%Z diskFull))) _).
    intros _. reflexivity.
  - intros Hc.
    refine (_ (proj1 (proj1 (Ok_Err_build_exactly (mkResult 42%Z diskFull)))
                 Hc _)).
    + discriminate.
    + discriminate.
Defined.

Lemma Constructed_determined_by_answers_witness :
  Constructed (Err nil : Result Z goerr) /\
  Constructed (Ok 0%Z : Result Z goerr) /\
  (Err nil : Result Z goerr) = Ok 0%Z.
Proof.
  split; [apply Constructed_Err|]. split; [apply Constructed_Ok|].
  refine (Constructed_determined_by_answers
            (Err nil : Result Z goerr) (Ok 0%Z) _ _ _ _).
  - apply (Constructed_Err (T := Z) (E := goerr)).
  - apply Constructed_Ok.
  - reflexivity.
  - reflexivity.
Defined.

Lemma OpenFile_failure_witness :
  noFile "unknown.txt"
  = (None,
     Some (errorString "open unknown.txt: no such file or directory")) /\
  exists w : goerr,
    OpenFile noFile "unknown.txt" = mkResult None (Some w) /\
    errorMsg w
    = "cannot open file: open unknown.txt: no such file or directory" /\
    goerr_Unwrap w = Some errCannotOpenFile.
Proof.
  split; [reflexivity|].
  refine (match OpenFile_failure noFile "unknown.txt" None
                  (errorString "open unknown.txt: no such file or directory")
                  _
          with
          | ex_intro _ w (conj Hr (conj Ht (conj Hu _))) =>
              ex_intro _ w (conj Hr (conj Ht Hu))
          end).
  reflexivity.
Defined.

Lemma main_panics_without_file_txt_witness :
  main noFile (fun name : string => name)
  = (Panicked
       (PanicString
          "called Unwrap on Err: cannot open file: open file.txt: no such file or directory"),
     []).
Proof.
  refine (main_panics_without_file_txt noFile (fun name => name) None
            (errorString "open file.txt: no such file or directory") _).
  reflexivity.
Defined.

Lemma main_returns_with_file_txt_witness :
  main onlyFileTxt (fun name : string => name)
  = (Returned tt,
     [Stdout ("OK: file exists" ++ newline);
      Stdout ("Opened: file.txt" ++ newline);
      Stderr ("ERROR: cannot open file: open unknown.txt: no such file or directory"
              ++ newline);
      Stderr ("UnwrapOrErr: fatal: cannot read unknown.txt" ++ newline);
      Closed (Some "file.txt")]).
Proof.
  refine (main_returns_with_file_txt onlyFileTxt (fun name => name)
            "file.txt" _).
  reflexivity.
Defined.

Lemma main_returns_iff_witness :
  fst (main onlyFileTxt (fun name : string => name)) = Returned tt /\
  fst (main noFile (fun name : string => name)) <> Returned tt.
Proof.
  split.
  - refine (proj2 (main_returns_iff onlyFileTxt (fun name => name)) _).
    exists "file.txt". reflexivity.
  - intros Hret.
    destruct (proj1 (main_returns_iff noFile (fun name => name)) Hret)
      as [f Hf].
    discriminate.
Defined.

Lemma main_closes_only_file_txt_witness :
  fst (everyFile "unknown.txt") = Some "unknown.txt" /\
  closes (snd (main everyFile (fun name : string => name)))
  = [Some "file.txt"].
Proof.
  split; [reflexivity|].
  refine (main_closes_only_file_txt everyFile (fun name => name)
            "file.txt" _).
  reflexivity.
Defined.
